(** * GraphQL "Hello world": the greeting service and its browser client

    A shallow embedding of the two scripts of the example:
    - [server.js], which hands a schema and a resolver map to Apollo Server
      and starts a standalone listener;
    - the browser snippet, which POSTs one query with [fetch] and writes the
      answer into the page.

    JavaScript values are an inductive type, the text of the schema and of
    the query document are strings as in the source, the page is a finite
    map from element ids to text contents, and asynchronous code is a small
    state-and-rejection monad that records every request and every write to
    the page. *)

From Stdlib Require Import String Ascii List ZArith Lia.
From stdpp Require Import base option list strings gmap.

Set Warnings "-register-all".
Local Open Scope string_scope.
Local Open Scope list_scope.

(** ** JavaScript values *)

Module JS.

(** A number is carried by its canonical decimal rendering, the text both
    [String(n)] and [JSON.stringify(n)] produce for a finite number. *)
Inductive JSValue : Type :=
| JUndefined
| JNull
| JBool (b : bool)
| JNumber (repr : string)
| JString (s : string)
| JArray (elems : list JSValue)
| JObject (props : list (string * JSValue)).

(** Own-property lookup in an object literal. *)
Fixpoint own_property (k : string) (props : list (string * JSValue))
  : option JSValue :=
  match props with
  | [] => None
  | (k', v) :: rest => if String.eqb k k' then Some v else own_property k rest
  end.

(** What a program can throw, or a promise reject with. *)
Inductive Thrown : Type :=
| FetchFailure (reason : string)
| JsonSyntaxError
| CannotDestructure (prop : string) (base : JSValue)
| CannotRead (prop : string) (base : JSValue)
| CannotSet (prop : string) (base : JSValue).

(** How a promise ends up: fulfilled, rejected, or never settled. *)
Inductive Settled (A : Type) : Type :=
| Fulfilled (a : A)
| Rejected (reason : Thrown)
| Pending.
Arguments Fulfilled {A} a.
Arguments Rejected {A} reason.
Arguments Pending {A}.

(** [base.k] for a key [k] that no built-in prototype defines (the client
    reads [data] and [greeting] only): a [TypeError] on [undefined] and
    [null], the own property of an object, [undefined] otherwise. *)
Definition get (base : JSValue) (k : string) : option JSValue :=
  match base with
  | JUndefined | JNull => None
  | JObject props => Some (default JUndefined (own_property k props))
  | _ => Some JUndefined
  end.

Definition dquote : string := String "034" EmptyString.

Definition hex_digit (n : N) : ascii :=
  match n with
  | 0%N => "0" | 1%N => "1" | 2%N => "2" | 3%N => "3" | 4%N => "4"
  | 5%N => "5" | 6%N => "6" | 7%N => "7" | 8%N => "8" | 9%N => "9"
  | 10%N => "a" | 11%N => "b" | 12%N => "c" | 13%N => "d" | 14%N => "e"
  | _ => "f"
  end%char.

(** One character of [QuoteJSONString]. *)
Definition escape_char (c : ascii) : string :=
  let n := N_of_ascii c in
  if N.eqb n 34 then String "092" dquote
  else if N.eqb n 92 then String "092" (String "092" EmptyString)
  else if N.eqb n 8 then String "092" "b"
  else if N.eqb n 12 then String "092" "f"
  else if N.eqb n 10 then String "092" "n"
  else if N.eqb n 13 then String "092" "r"
  else if N.eqb n 9 then String "092" "t"
  else if N.ltb n 32 then
    String "092" ("u00" +:+ String (hex_digit (n / 16)) (String (hex_digit (n mod 16)) EmptyString))
  else String c EmptyString.

Fixpoint escape (s : string) : string :=
  match s with
  | EmptyString => EmptyString
  | String c rest => escape_char c +:+ escape rest
  end.

(** [s] between double quotes, as it is. *)
Definition quoted (s : string) : string := dquote +:+ s +:+ dquote.

Definition quote (s : string) : string := quoted (escape s).

Fixpoint join (sep : string) (parts : list string) : string :=
  match parts with
  | [] => ""
  | [p] => p
  | p :: rest => p +:+ sep +:+ join sep rest
  end.

(** [JSON.stringify(v)]: [None] stands for the [undefined] it returns on
    [undefined]; a property whose value is [undefined] is left out of an
    object, an [undefined] element of an array is written [null]. *)
Fixpoint JSON_stringify (v : JSValue) : option string :=
  match v with
  | JUndefined => None
  | JNull => Some "null"
  | JBool b => Some (if b then "true" else "false")
  | JNumber repr => Some repr
  | JString s => Some (quote s)
  | JArray elems =>
      Some ("[" +:+ join "," (List.map (fun e => default "null" (JSON_stringify e)) elems) +:+ "]")
  | JObject props =>
      let member :=
        fix member (ps : list (string * JSValue)) : list string :=
          match ps with
          | [] => []
          | (k, x) :: rest =>
              match JSON_stringify x with
              | Some t => (quote k +:+ ":" +:+ t) :: member rest
              | None => member rest
              end
          end in
      Some ("{" +:+ join "," (member props) +:+ "}")
  end.

(** [ToString] of the language. *)
Fixpoint ToString (v : JSValue) : string :=
  match v with
  | JUndefined => "undefined"
  | JNull => "null"
  | JBool b => if b then "true" else "false"
  | JNumber repr => repr
  | JString s => s
  | JArray elems =>
      join "," (List.map (fun e => match e with
                                   | JUndefined | JNull => ""
                                   | _ => ToString e
                                   end) elems)
  | JObject _ => "[object Object]"
  end.

End JS.
Export JS.

(** ** The browser client *)

Module Client.

(** The options object handed to [fetch].  The source gives [method],
    [headers] and [body]; [signal], the member an abort or a timeout would
    need, is not given. *)
Record RequestInit : Type := {
  method : string;
  headers : list (string * string);
  body : option string;
  signal : option string
}.

(** What the client can see of an HTTP response.  [json_body] is the value
    [response.json()] resolves with, [None] when the body is not JSON and
    the call rejects. *)
Record Response : Type := {
  status : Z;
  ok : bool;
  response_headers : list (string * string);
  json_body : option JSValue
}.

(** The network answers the [n]-th call of [fetch] (counting from 0): with
    a response, with a failure, or never (the script sets no timeout). *)
Definition Network : Type := nat -> string -> RequestInit -> Settled Response.

(** The browser state the script acts on: the requests issued so far, the
    page as a map from element id to text content, and every write to the
    page in the order it happened.  The page is recorded flat, one entry
    for each element with an id; how these elements lie inside one another
    is not recorded.  What a write does is therefore stated by the entry of
    the element written to and by the log of writes, not by the entries of
    the elements around or inside it. *)
Record Browser : Type := {
  requests : list (string * RequestInit);
  document : gmap string string;
  dom_writes : list (string * string)
}.

(** An [async] computation: it runs against a network, changes the browser
    state and settles. *)
Definition Async (A : Type) : Type := Network -> Browser -> Settled A * Browser.

Definition ret {A} (a : A) : Async A := fun _ b => (Fulfilled a, b).

Definition throw {A} (e : Thrown) : Async A := fun _ b => (Rejected e, b).

(** [await]: continue on fulfilment, reject with the same reason on
    rejection, and never continue on a promise that does not settle. *)
Definition bind {A B} (m : Async A) (k : A -> Async B) : Async B :=
  fun net b =>
    match m net b with
    | (Fulfilled a, b') => k a net b'
    | (Rejected e, b') => (Rejected e, b')
    | (Pending, b') => (Pending, b')
    end.

Notation "'let*' x ':=' m 'in' k" := (bind m (fun x => k))
  (at level 10, x name, m at level 100, k at level 200).

Definition lift {A} (o : option A) (e : Thrown) : Async A :=
  match o with
  | Some a => ret a
  | None => throw e
  end.

(** [p.then(onFulfilled, onRejected)]; a handler that is not given lets the
    settlement through. *)
Definition promise_then {A} (p : Async A)
    (onFulfilled : A -> Async JSValue)
    (onRejected : option (Thrown -> Async JSValue)) : Async JSValue :=
  fun net b =>
    match p net b with
    | (Fulfilled a, b') => onFulfilled a net b'
    | (Rejected e, b') =>
        match onRejected with
        | Some h => h e net b'
        | None => (Rejected e, b')
        end
    | (Pending, b') => (Pending, b')
    end.

(** [fetch(url, init)]: one request goes out, whatever the answer. *)
Definition fetch (url : string) (init : RequestInit) : Async Response :=
  fun net b =>
    (net (length (requests b)) url init,
     {| requests := requests b ++ [(url, init)];
        document := document b;
        dom_writes := dom_writes b |}).

(** [response.json()] *)
Definition json (r : Response) : Async JSValue :=
  lift (json_body r) JsonSyntaxError.

(** [const { k } = v] *)
Definition destructure (k : string) (v : JSValue) : Async JSValue :=
  lift (get v k) (CannotDestructure k v).

(** [v.k] *)
Definition read (v : JSValue) (k : string) : Async JSValue :=
  lift (get v k) (CannotRead k v).

(** [document.getElementById(id)]: the element, named by its id, or [null]. *)
Definition getElementById (id : string) : Async (option string) :=
  fun _ b => (Fulfilled (if document b !! id is Some _ then Some id else None), b).

(** The conversion of the [textContent] setter, a nullable [DOMString]:
    [null] and [undefined] give the empty text. *)
Definition text_of (v : JSValue) : string :=
  match v with
  | JUndefined | JNull => ""
  | _ => ToString v
  end.

(** [el.textContent = v]: the entry of the element is set to the text and
    the write is logged.  The setter also drops what was inside the
    element; of that the flat page has no record. *)
Definition set_textContent (el : option string) (v : JSValue) : Async JSValue :=
  match el with
  | None => throw (CannotSet "textContent" JNull)
  | Some id =>
      fun _ b =>
        (Fulfilled v,
         {| requests := requests b;
            document := <[id := text_of v]> (document b);
            dom_writes := dom_writes b ++ [(id, text_of v)] |})
  end.

Definition query_document : string := "query { greeting }".

Definition endpoint : string := "http://localhost:9001/".

Definition request_init : RequestInit :=
  {| method := "POST";
     headers := [("Content-Type", "application/json")];
     body := JSON_stringify (JObject [("query", JString query_document)]);
     signal := None |}.

(** [async function fetchGreeting()] *)
Definition fetchGreeting : Async JSValue :=
  let* response := fetch endpoint request_init in
  let* parsed := json response in
  let* data := destructure "data" parsed in
  read data "greeting".

(** The statement at the top level of the script:
    [fetchGreeting().then((greeting) => { ... })]. *)
Definition script : Async JSValue :=
  promise_then fetchGreeting
    (fun greeting =>
       let* el := getElementById "greeting" in
       let* _ := set_textContent el greeting in
       ret JUndefined)
    None.

(** A page, before the script has run. *)
Definition page (doc : gmap string string) : Browser :=
  {| requests := []; document := doc; dom_writes := [] |}.

(** The browser once the request of [fetchGreeting] has gone out. *)
Definition sent (b : Browser) : Browser :=
  {| requests := requests b ++ [(endpoint, request_init)];
     document := document b;
     dom_writes := dom_writes b |}.

(** The browser once [text] has been written into the element [id]. *)
Definition wrote (id text : string) (b : Browser) : Browser :=
  {| requests := requests b;
     document := <[id := text]> (document b);
     dom_writes := dom_writes b ++ [(id, text)] |}.

(** [data.greeting] of a parsed body, [None] where reading it throws. *)
Definition data_greeting (parsed : JSValue) : option JSValue :=
  match get parsed "data" with
  | Some data => get data "greeting"
  | None => None
  end.

(** *** Sample responses, networks and pages *)

Definition response_X : Response :=
  {| status := 200; ok := true; response_headers := [];
     json_body := Some (JObject [("data", JObject [("greeting", JString "X")])]) |}.

(** The same greeting under another status, with headers and further keys. *)
Definition response_X_failed : Response :=
  {| status := 500; ok := false;
     response_headers := [("Content-Type", "text/plain")];
     json_body :=
       Some (JObject [("errors", JArray [JObject [("message", JString "failed")]]);
                      ("data", JObject [("greeting", JString "X"); ("other", JNumber "1")])]) |}.

(** An answer with errors only. *)
Definition response_errors : Response :=
  {| status := 400; ok := false; response_headers := [];
     json_body :=
       Some (JObject [("errors", JArray [JObject [("message", JString "failed")]])]) |}.

Definition network_X : Network := fun _ _ _ => Fulfilled response_X.

Definition network_X_failed : Network := fun _ _ _ => Fulfilled response_X_failed.

Definition network_errors : Network := fun _ _ _ => Fulfilled response_errors.


Definition page_loading : Browser := page {["greeting" := "Loading"]}.

End Client.

(** ** The GraphQL engine behind the service

    [server.js] imports its engine, [ApolloServer] of the package
    [@apollo/server]; the engine's code is not among the sources.  This
    module covers the fragment of the language the example uses: object
    types with fields of a named type, and one operation with a flat
    selection of field names.  [None] is a text outside that fragment,
    about which nothing is said. *)

Module GraphQL.

Inductive Token : Type :=
| TName (n : string)
| TLBrace
| TRBrace
| TColon
| TBang.

Inductive CharClass : Type :=
| Ignored
| CommentStart
| Punctuator (t : Token)
| NameStart
| Other.

Definition is_name_start (n : N) : bool :=
  ((65 <=? n) && (n <=? 90) || (97 <=? n) && (n <=? 122) || (n =? 95))%N.

Definition is_digit (n : N) : bool := ((48 <=? n) && (n <=? 57))%N.

Definition is_name_continue (c : ascii) : bool :=
  is_name_start (N_of_ascii c) || is_digit (N_of_ascii c).

Definition is_line_terminator (c : ascii) : bool :=
  ((N_of_ascii c =? 10) || (N_of_ascii c =? 13))%N.

(** White space, line terminators and commas are ignored between tokens. *)
Definition classify (c : ascii) : CharClass :=
  let n := N_of_ascii c in
  if ((n =? 32) || (n =? 9) || (n =? 10) || (n =? 13) || (n =? 44))%N then Ignored
  else if (n =? 35)%N then CommentStart
  else if (n =? 123)%N then Punctuator TLBrace
  else if (n =? 125)%N then Punctuator TRBrace
  else if (n =? 58)%N then Punctuator TColon
  else if (n =? 33)%N then Punctuator TBang
  else if is_name_start n then NameStart
  else Other.

Inductive LexMode : Type :=
| Between
| InName (acc : string)
| InComment.

(** A character met between tokens. *)
Definition fresh (c : ascii) : option (list Token * LexMode) :=
  match classify c with
  | Ignored => Some ([], Between)
  | CommentStart => Some ([], InComment)
  | Punctuator t => Some ([t], Between)
  | NameStart => Some ([], InName (String c EmptyString))
  | Other => None
  end.

(** One character: the tokens it completes and the mode it leaves.  A
    comment runs from [#] to the end of its line. *)
Definition lex_step (mode : LexMode) (c : ascii) : option (list Token * LexMode) :=
  match mode with
  | InComment => Some ([], if is_line_terminator c then Between else InComment)
  | InName acc =>
      if is_name_continue c then Some ([], InName (acc +:+ String c EmptyString))
      else '(out, mode') ← fresh c; Some (TName acc :: out, mode')
  | Between => fresh c
  end.

Fixpoint lex (mode : LexMode) (s : string) : option (list Token) :=
  match s with
  | EmptyString =>
      Some (match mode with
            | InName acc => [TName acc]
            | _ => []
            end)
  | String c rest =>
      '(out, mode') ← lex_step mode c;
      app out <$> lex mode' rest
  end.

Definition tokens (s : string) : option (list Token) := lex Between s.

(** *** Schema definition language *)

Inductive OperationType : Type :=
| OpQuery
| OpMutation
| OpSubscription.

Global Instance OperationType_eq_dec : EqDecision OperationType.
Proof. solve_decision. Defined.

Definition operation_of (kw : string) : option OperationType :=
  if String.eqb kw "query" then Some OpQuery
  else if String.eqb kw "mutation" then Some OpMutation
  else if String.eqb kw "subscription" then Some OpSubscription
  else None.

Definition operation_name (op : OperationType) : string :=
  match op with
  | OpQuery => "query"
  | OpMutation => "mutation"
  | OpSubscription => "subscription"
  end.

(** A field's type: a named type, nullable unless marked with [!]. *)
Inductive TypeRef : Type :=
| Nullable (n : string)
| NonNull (n : string).

Record Schema : Type := {
  root_types : list (OperationType * string);
  object_types : list (string * list (string * TypeRef))
}.

(** [query: Query ... }] *)
Fixpoint parse_root_types (ts : list Token)
  : option (list (OperationType * string) * list Token) :=
  match ts with
  | TRBrace :: rest => Some ([], rest)
  | TName kw :: TColon :: TName t :: rest =>
      op ← operation_of kw;
      '(more, rest') ← parse_root_types rest;
      Some ((op, t) :: more, rest')
  | _ => None
  end.

(** [greeting: String ... }] *)
Fixpoint parse_field_definitions (ts : list Token)
  : option (list (string * TypeRef) * list Token) :=
  match ts with
  | TRBrace :: rest => Some ([], rest)
  | TName f :: TColon :: TName t :: TBang :: rest =>
      '(more, rest') ← parse_field_definitions rest;
      Some ((f, NonNull t) :: more, rest')
  | TName f :: TColon :: TName t :: rest =>
      '(more, rest') ← parse_field_definitions rest;
      Some ((f, Nullable t) :: more, rest')
  | _ => None
  end.

(** The definitions of a document, one [schema { ... }] or
    [type Name { ... }] at a time; every definition uses up a token. *)
Fixpoint parse_definitions (fuel : nat) (ts : list Token) (acc : Schema)
  : option Schema :=
  match ts, fuel with
  | [], _ => Some acc
  | _, O => None
  | TName kw :: TLBrace :: rest, S fuel' =>
      if String.eqb kw "schema" then
        '(roots, rest') ← parse_root_types rest;
        parse_definitions fuel' rest'
          {| root_types := root_types acc ++ roots;
             object_types := object_types acc |}
      else None
  | TName kw :: TName n :: TLBrace :: rest, S fuel' =>
      if String.eqb kw "type" then
        '(fields, rest') ← parse_field_definitions rest;
        parse_definitions fuel' rest'
          {| root_types := root_types acc;
             object_types := object_types acc ++ [(n, fields)] |}
      else None
  | _, _ => None
  end.

(** Modelled from the spec: the engine's reading of [typeDefs], which is
    not among the sources.  The spec gives the schema in the schema
    definition language, [schema { query: Query }] and
    [type Query { greeting: String }]. *)
Definition buildSchema (sdl : string) : option Schema :=
  ts ← tokens sdl;
  parse_definitions (length ts) ts {| root_types := []; object_types := [] |}.

Fixpoint assoc {A} (k : string) (l : list (string * A)) : option A :=
  match l with
  | [] => None
  | (k', a) :: rest => if String.eqb k k' then Some a else assoc k rest
  end.

(** The object type an operation starts from. *)
Definition root_type (s : Schema) (op : OperationType) : option string :=
  snd <$> List.find (fun r => bool_decide (fst r = op)) (root_types s).

(** The fields the schema lets an operation of kind [op] select. *)
Definition root_fields (s : Schema) (op : OperationType)
  : option (list (string * TypeRef)) :=
  t ← root_type s op;
  assoc t (object_types s).

(** The schema lets an operation of kind [op] select [f], of type [ty]. *)
Definition exposes (s : Schema) (op : OperationType) (f : string) (ty : TypeRef)
  : Prop :=
  exists fields, root_fields s op = Some fields /\ assoc f fields = Some ty.

(** Some object type of the schema has a field [f]. *)
Definition defines (s : Schema) (f : string) : bool :=
  existsb (fun t => if assoc f (snd t) is Some _ then true else false)
          (object_types s).

(** *** Query documents *)

Record Operation : Type := {
  operation : OperationType;
  name : option string;
  selections : list string
}.

(** Names that begin with two underscores belong to the engine's
    introspection and are outside the fragment. *)
Definition reserved (n : string) : bool := String.prefix "__" n.

(** [greeting ... }] *)
Fixpoint parse_selection_set (ts : list Token) : option (list string * list Token) :=
  match ts with
  | TRBrace :: rest => Some ([], rest)
  | TName f :: rest =>
      if reserved f then None
      else
        '(more, rest') ← parse_selection_set rest;
        Some (f :: more, rest')
  | _ => None
  end.

Definition selection_set (op : OperationType) (nm : option string)
    (ts : list Token) : option Operation :=
  match parse_selection_set ts with
  | Some (f :: fs, []) =>
      Some {| operation := op; name := nm; selections := f :: fs |}
  | _ => None
  end.

(** Modelled from the spec: the engine's reading of a query document,
    which is not among the sources.  The spec's documents are
    [query { greeting }] and the shorthand [{ bogus }]: one operation,
    [{ ... }], [query { ... }] or [query Name { ... }]. *)
Definition parse (q : string) : option Operation :=
  ts ← tokens q;
  match ts with
  | TLBrace :: rest => selection_set OpQuery None rest
  | TName kw :: TLBrace :: rest =>
      op ← operation_of kw; selection_set op None rest
  | TName kw :: TName nm :: TLBrace :: rest =>
      op ← operation_of kw; selection_set op (Some nm) rest
  | _ => None
  end.

(** *** Resolvers and the server's options *)

(** The state of the process a resolver may read and write: its mutable
    bindings, by name. *)
Definition Store : Type := gmap string JSValue.

(** A resolver is a function of the arguments the engine calls it with;
    being JavaScript, it may also act on the state of the process. *)
Definition Resolver : Type := list JSValue -> Store -> JSValue * Store.

Definition ResolverMap : Type := list (string * list (string * Resolver)).

(** The options of [new ApolloServer({ ... })].  [formatError] is the hook
    through which a service shapes the errors sent to clients. *)
Record ApolloServer : Type := {
  typeDefs : string;
  resolvers : ResolverMap;
  formatError : option (JSValue -> JSValue)
}.

(** *** Validation *)

Definition error (msg : string) : JSValue := JObject [("message", JString msg)].

Definition unknown_field (f t : string) : JSValue :=
  error ("Cannot query field " +:+ quote f +:+ " on type " +:+ quote t +:+ ".").

Definition undefined_fields (t : string) (fields : list (string * TypeRef))
    (sel : list string) : list JSValue :=
  omap (fun f => if assoc f fields is Some _ then None
                 else Some (unknown_field f t)) sel.

(** Modelled from the spec: the engine's validation, which is not among
    the sources.  The spec has a query that names an unknown field answered
    with an [errors] array; these are the errors that keep an operation from
    being executed. *)
Definition validate (s : Schema) (op : Operation) : list JSValue :=
  match root_type s (operation op) with
  | None =>
      [error ("Schema is not configured to execute "
              +:+ operation_name (operation op) +:+ " operation.")]
  | Some t =>
      match assoc t (object_types s) with
      | None => [error ("Unknown type " +:+ quote t +:+ ".")]
      | Some fields => undefined_fields t fields (selections op)
      end
  end.

(** *** Execution *)

(** A field asked for twice is answered once, at its first place. *)
Fixpoint collect_fields (seen sel : list string) : list string :=
  match sel with
  | [] => []
  | f :: rest =>
      if bool_decide (f ∈ seen) then collect_fields seen rest
      else f :: collect_fields (f :: seen) rest
  end.

(** The engine calls the resolver registered for [t.f] with the parent
    value, the field's arguments, the context and the field's description;
    a field without one reads the property off the parent, which at the
    root is [undefined]. *)
Definition resolve_field (rs : ResolverMap) (t f : string) (st : Store)
  : JSValue * Store :=
  match assoc t rs ≫= assoc f with
  | Some resolver =>
      resolver [JUndefined; JObject []; JObject [];
                JObject [("fieldName", JString f); ("parentType", JString t)]] st
  | None => (JUndefined, st)
  end.

(** The value of a nullable [String] field, and the error when the resolver
    gave something a string cannot stand for. *)
Definition complete_String (v : JSValue) : JSValue * list JSValue :=
  match v with
  | JUndefined | JNull => (JNull, [])
  | JString s => (JString s, [])
  | JBool _ | JNumber _ => (JString (ToString v), [])
  | JArray _ | JObject _ => (JNull, [error "String cannot represent value"])
  end.

Fixpoint execute_fields (rs : ResolverMap) (t : string)
    (fields : list (string * TypeRef)) (sel : list string) (st : Store)
  : option (list (string * JSValue) * list JSValue * Store) :=
  match sel with
  | [] => Some ([], [], st)
  | f :: rest =>
      match assoc f fields with
      | Some (Nullable n) =>
          if String.eqb n "String" then
            let '(v, st1) := resolve_field rs t f st in
            let '(d, e) := complete_String v in
            '(ds, es, st2) ← execute_fields rs t fields rest st1;
            Some ((f, d) :: ds, e ++ es, st2)
          else None
      | _ => None
      end
  end.

(** The response: [errors] when there are any, [data] when the operation
    was executed. *)
Definition response (format : option (JSValue -> JSValue))
    (errs : list JSValue) (data : option (list (string * JSValue))) : JSValue :=
  JObject
    ((if errs is [] then []
      else [("errors", JArray (List.map (default id format) errs))])
     ++ (if data is Some d then [("data", JObject d)] else [])).

(** Modelled from the spec: the engine's execution, which is not among the
    sources.  The spec has the operation executed against the schema by the
    resolver of each field, and the answer in the standard response shape,
    [{ data: { greeting: ... } }]. *)
Definition execute (server : ApolloServer) (s : Schema) (op : Operation)
    (st : Store) : option (JSValue * Store) :=
  match validate s op with
  | [] =>
      match operation op with
      | OpSubscription => None
      | _ =>
          t ← root_type s (operation op);
          fields ← assoc t (object_types s);
          '(d, errs, st') ←
            execute_fields (resolvers server) t fields
              (collect_fields [] (selections op)) st;
          Some (response (formatError server) errs (Some d), st')
      end
  | errs => Some (response (formatError server) errs None, st)
  end.

(** Modelled from the spec: the engine's answer to a query document POSTed
    to the server; the engine is not among the sources. *)
Definition respond (server : ApolloServer) (q : string) (st : Store)
  : option (JSValue * Store) :=
  s ← buildSchema (typeDefs server);
  op ← parse q;
  execute server s op st.

End GraphQL.

(** ** The greeting service *)

Module Service.
Import GraphQL.

(** [const typeDefs = `#graphql ...`] *)
Definition typeDefs : string := "#graphql
    schema {
        query: Query
    }
    type Query {
        greeting: String 
    }
".

(** [greeting: () => 'Hello world'] *)
Definition greeting : Resolver :=
  fun _ st => (JString "Hello world", st).

(** [const resolvers = { Query: { greeting: ... } }] *)
Definition resolvers : ResolverMap :=
  [("Query", [("greeting", greeting)])].

(** [new ApolloServer({ typeDefs: typeDefs, resolvers: resolvers })] *)
Definition server : ApolloServer :=
  {| GraphQL.typeDefs := typeDefs;
     GraphQL.resolvers := resolvers;
     GraphQL.formatError := None |}.

(** The process the script runs in: its environment variables, the ports
    it listens on and the lines on its console. *)
Record Process : Type := {
  environment : gmap string string;
  listening : list Z;
  console : list string
}.

(** The host binds a port and names the listener's URL, or refuses. *)
Definition Host : Type := Z -> option string.

Record ListenOptions : Type := { port : Z }.

(** Modelled from the spec: [startStandaloneServer] of the package
    [@apollo/server/standalone], which [server.js] imports and which is not
    among the sources.  The spec has the service bind an HTTP listener on
    the port it is given when the process starts; the call resolves with
    the listener's URL once it is bound.  On a port that cannot be bound
    the promise is left unsettled, and nothing after the [await] runs. *)
Definition startStandaloneServer (_ : ApolloServer) (listen : ListenOptions)
    (host : Host) (p : Process) : Settled string * Process :=
  match host (port listen) with
  | Some url =>
      (Fulfilled url,
       {| environment := environment p;
          listening := listening p ++ [port listen];
          console := console p |})
  | None => (Pending, p)
  end.

Definition console_log (line : string) (p : Process) : Process :=
  {| environment := environment p;
     listening := listening p;
     console := console p ++ [line] |}.

(** The two statements that start the service:
    [const { url } = await startStandaloneServer(server, { listen: { port: 9001 } })]
    and [console.log(`Server running at ${url}`)]. *)
Definition main (host : Host) (p : Process) : Settled unit * Process :=
  match startStandaloneServer server {| port := 9001 |} host p with
  | (Fulfilled url, p') =>
      (Fulfilled tt, console_log ("Server running at " +:+ url) p')
  | (Rejected e, p') => (Rejected e, p')
  | (Pending, p') => (Pending, p')
  end.

(** A sequence of invocations of a resolver, one after the other, each with
    its own arguments: the results in order and the state left behind. *)
Fixpoint invoke_all (r : Resolver) (calls : list (list JSValue)) (st : Store)
  : list JSValue * Store :=
  match calls with
  | [] => ([], st)
  | args :: rest =>
      let '(v, st1) := r args st in
      let '(vs, st2) := invoke_all r rest st1 in
      (v :: vs, st2)
  end.

(** The schema [typeDefs] is shown to stand for. *)
Definition greeting_schema : Schema :=
  {| root_types := [(OpQuery, "Query")];
     object_types := [("Query", [("greeting", Nullable "String")])] |}.

(** The answer to [query { greeting }]. *)
Definition greeting_answer : JSValue :=
  JObject [("data", JObject [("greeting", JString "Hello world")])].

(** *** Sample hosts and processes *)

Definition localhost : Host :=
  fun p => Some ("http://localhost:" +:+ (if (p =? 9001)%Z then "9001" else "0") +:+ "/").

Definition fresh_process : Process :=
  {| environment := {["PORT" := "4000"]}; listening := []; console := [] |}.

End Service.

(** ** Client and service on one wire *)

Module Wire.
Import Client.

(** A network whose only endpoint is the service: the POST of the client's
    request body is answered with what the service responds to the query
    document in it, any other request fails. *)
Definition service_network (st : GraphQL.Store) : Network :=
  fun _ url init =>
    if bool_decide (url = endpoint
                    /\ method init = "POST"
                    /\ body init = JSON_stringify (JObject [("query", JString query_document)]))
    then
      match GraphQL.respond Service.server query_document st with
      | Some (answer, _) =>
          Fulfilled {| status := 200; ok := true;
                       response_headers := [("Content-Type", "application/json")];
                       json_body := Some answer |}
      | None => Rejected (FetchFailure "Failed to fetch")
      end
    else Rejected (FetchFailure "Failed to fetch").

End Wire.

(** ** Further sample runs *)

Module Samples.
Import Client.

(** A page without the element the script writes to. *)
Definition page_bare : Browser := page {["title" := "Greeting"]}.

(** The answer a nullable [String] allows: [greeting] is [null]. *)
Definition response_null_greeting : Response :=
  {| status := 200; ok := true; response_headers := [];
     json_body := Some (JObject [("data", JObject [("greeting", JNull)])]) |}.

Definition network_null_greeting : Network :=
  fun _ _ _ => Fulfilled response_null_greeting.

(** The answer to an operation that failed as a whole: errors, and [null]
    for [data]. *)
Definition response_null_data : Response :=
  {| status := 200; ok := true; response_headers := [];
     json_body :=
       Some (JObject [("errors", JArray [JObject [("message", JString "failed")]]);
                      ("data", JNull)]) |}.

Definition network_null_data : Network :=
  fun _ _ _ => Fulfilled response_null_data.

(** A body that is the JSON text [null]. *)
Definition response_null_body : Response :=
  {| status := 200; ok := true; response_headers := [];
     json_body := Some JNull |}.

Definition network_null_body : Network :=
  fun _ _ _ => Fulfilled response_null_body.

End Samples.

(** * Properties of the client *)

Module ClientFacts.
Import Client.

(** The body of the request, written out. *)
Lemma request_body :
  body request_init
  = Some ("{" +:+ quoted "query" +:+ ":" +:+ quoted query_document +:+ "}").
Proof. reflexivity. Qed.

(** Nothing in the query document needs an escape: between the quotes of
    the body it stands as it is. *)
Lemma query_document_unescaped : escape query_document = query_document.
Proof. reflexivity. Qed.

(** How [fetchGreeting] settles, step by step. *)
Lemma fetchGreeting_run (net : Network) (b : Browser) :
  fetchGreeting net b =
    (match net (length (requests b)) endpoint request_init with
     | Fulfilled r =>
         match json_body r with
         | Some parsed =>
             match get parsed "data" with
             | Some data =>
                 match get data "greeting" with
                 | Some g => Fulfilled g
                 | None => Rejected (CannotRead "greeting" data)
                 end
             | None => Rejected (CannotDestructure "data" parsed)
             end
         | None => Rejected JsonSyntaxError
         end
     | Rejected e => Rejected e
     | Pending => Pending
     end, sent b).
Proof.
  unfold fetchGreeting, bind, fetch, json, destructure, read, lift, ret, throw, sent.
  destruct (net _ _ _) as [r | e |]; [| reflexivity | reflexivity].
  destruct (json_body r) as [parsed |]; [| reflexivity].
  destruct (get parsed "data") as [data |]; [| reflexivity].
  destruct (get data "greeting"); reflexivity.
Qed.

(** The request goes out however [fetchGreeting] settles. *)
Lemma fetchGreeting_sent (net : Network) (b : Browser) :
  snd (fetchGreeting net b) = sent b.
Proof. rewrite fetchGreeting_run. reflexivity. Qed.

(** The script: the callback runs on fulfilment only, and a rejection is
    handed on as it is. *)
Lemma script_run (net : Network) (b : Browser) :
  script net b =
    match fst (fetchGreeting net b) with
    | Fulfilled g =>
        match document b !! "greeting" with
        | Some _ => (Fulfilled JUndefined, wrote "greeting" (text_of g) (sent b))
        | None => (Rejected (CannotSet "textContent" JNull), sent b)
        end
    | Rejected e => (Rejected e, sent b)
    | Pending => (Pending, sent b)
    end.
Proof.
  unfold script, promise_then.
  destruct (fetchGreeting net b) as [out b'] eqn:Hrun.
  pose proof (fetchGreeting_sent net b) as Hsent.
  rewrite Hrun in Hsent. simpl in Hsent. subst b'. simpl.
  destruct out as [g | e |]; [| reflexivity | reflexivity].
  unfold bind, getElementById, set_textContent, ret, throw. simpl.
  destruct (document b !! "greeting"); reflexivity.
Qed.

(** A string is written as it is. *)
Lemma text_of_string (X : string) : text_of (JString X) = X.
Proof. reflexivity. Qed.

(** C3: every run of [fetchGreeting], whatever the network answers and
    whatever the browser did before, adds exactly one request to those
    issued: a POST to [http://localhost:9001/] with the header
    [Content-Type: application/json] and, as its body, the JSON text of
    [{ query: "query { greeting }" }], in which the query document stands
    unchanged between its quotes. *)
Theorem fetchGreeting_request :
  forall (net : Network) (b : Browser),
    requests (snd (fetchGreeting net b))
    = requests b
      ++ [("http://localhost:9001/",
           {| method := "POST";
              headers := [("Content-Type", "application/json")];
              body := JSON_stringify (JObject [("query", JString "query { greeting }")]);
              signal := None |})]
    /\ JSON_stringify (JObject [("query", JString "query { greeting }")])
       = Some ("{" +:+ quoted "query" +:+ ":" +:+ quoted "query { greeting }" +:+ "}").
Proof.
  intros net b. split; [| reflexivity].
  rewrite fetchGreeting_sent. reflexivity.
Qed.

(** C4: when [fetch] resolves with a response whose JSON body is
    [{ data: { greeting: X } }] for a string [X], and the page has an
    element with id [greeting], the script sets that element's text content
    to exactly [X]; this is its only write to the page: the log of writes
    grows by that one write and by nothing else. *)
Theorem script_renders_greeting :
  forall (X : string) (net : Network) (b : Browser) (r : Response) (old : string),
    net (length (requests b)) endpoint request_init = Fulfilled r ->
    json_body r = Some (JObject [("data", JObject [("greeting", JString X)])]) ->
    document b !! "greeting" = Some old ->
    let b' := snd (script net b) in
    fst (script net b) = Fulfilled JUndefined
    /\ document b' !! "greeting" = Some X
    /\ dom_writes b' = dom_writes b ++ [("greeting", X)].
Proof.
  intros X net b r old Hnet Hbody Hel.
  rewrite script_run, fetchGreeting_run, Hnet, Hbody. simpl.
  rewrite Hel. simpl.
  repeat split; try reflexivity.
  apply lookup_insert_eq.
Qed.

Lemma script_renders_greeting_witness :
  fst (script network_X page_loading) = Fulfilled JUndefined
  /\ document (snd (script network_X page_loading)) !! "greeting" = Some "X"
  /\ dom_writes (snd (script network_X page_loading)) = [("greeting", "X")].
Proof.
  destruct (script_renders_greeting "X" network_X page_loading response_X "Loading")
    as (Hdone & Htext & Hwrites).
  - reflexivity.
  - reflexivity.
  - reflexivity.
  - repeat split; assumption.
Defined.



(** An object without a [data] key reads [undefined] there. *)
Lemma get_missing_key (k : string) (props : list (string * JSValue)) :
  own_property k props = None -> get (JObject props) k = Some JUndefined.
Proof. intros H. simpl. rewrite H. reflexivity. Qed.

(** C9: when [fetch] resolves and the parsed body has no [data] key, so
    that [data] reads as [undefined] (an errors-only answer such as
    [{ errors: [...] }]), [fetchGreeting] throws on reading [greeting] of
    [undefined]; the script renders nothing and leaves the page, and with it
    the element with id [greeting], as it was. *)
Theorem missing_data_throws :
  forall (net : Network) (b : Browser) (r : Response) (parsed : JSValue),
    net (length (requests b)) endpoint request_init = Fulfilled r ->
    json_body r = Some parsed ->
    get parsed "data" = Some JUndefined ->
    fst (fetchGreeting net b) = Rejected (CannotRead "greeting" JUndefined)
    /\ fst (script net b) = Rejected (CannotRead "greeting" JUndefined)
    /\ document (snd (script net b)) = document b
    /\ dom_writes (snd (script net b)) = dom_writes b.
Proof.
  intros net b r parsed Hnet Hbody Hdata.
  assert (Hrej : fst (fetchGreeting net b) = Rejected (CannotRead "greeting" JUndefined)).
  { rewrite fetchGreeting_run, Hnet, Hbody, Hdata. reflexivity. }
  rewrite script_run, Hrej. repeat split.
Qed.

Lemma missing_data_throws_witness :
  fst (fetchGreeting network_errors page_loading) = Rejected (CannotRead "greeting" JUndefined)
  /\ document (snd (script network_errors page_loading)) !! "greeting" = Some "Loading".
Proof.
  destruct (missing_data_throws network_errors page_loading response_errors
              (JObject [("errors", JArray [JObject [("message", JString "failed")]])]))
    as (Hthrow & _ & Hdoc & _).
  - reflexivity.
  - reflexivity.
  - reflexivity.
  - split; [exact Hthrow |]. rewrite Hdoc. reflexivity.
Defined.

(** A body that is [null] has no keys at all: there the throw comes one
    step earlier, at the destructuring, and the page is left alike. *)
Lemma null_body_throws (net : Network) (b : Browser) (r : Response) :
  net (length (requests b)) endpoint request_init = Fulfilled r ->
  json_body r = Some JNull ->
  script net b = (Rejected (CannotDestructure "data" JNull), sent b).
Proof.
  intros Hnet Hbody. rewrite script_run, fetchGreeting_run, Hnet, Hbody.
  reflexivity.
Qed.

(** What the script leaves on the page is decided by [data.greeting]. *)
Lemma script_page (net : Network) (b : Browser) (r : Response) (parsed : JSValue) :
  net (length (requests b)) endpoint request_init = Fulfilled r ->
  json_body r = Some parsed ->
  snd (script net b) =
    match data_greeting parsed, document b !! "greeting" with
    | Some g, Some _ => wrote "greeting" (text_of g) (sent b)
    | _, _ => sent b
    end.
Proof.
  intros Hnet Hbody.
  rewrite script_run, fetchGreeting_run, Hnet, Hbody. unfold data_greeting. simpl.
  destruct (get parsed "data") as [data |]; [| reflexivity].
  destruct (get data "greeting"); [| reflexivity].
  destruct (document b !! "greeting"); reflexivity.
Qed.

(** C10: what the script writes depends on [data.greeting] of the parsed
    body alone.  Two responses whose bodies agree on [data.greeting] leave
    the same page and the same writes, whatever their status, their [ok]
    flag, their headers and the other keys of their bodies. *)
Theorem rendering_depends_on_data_greeting :
  forall (net1 net2 : Network) (b : Browser) (r1 r2 : Response) (p1 p2 : JSValue),
    net1 (length (requests b)) endpoint request_init = Fulfilled r1 ->
    net2 (length (requests b)) endpoint request_init = Fulfilled r2 ->
    json_body r1 = Some p1 ->
    json_body r2 = Some p2 ->
    data_greeting p1 = data_greeting p2 ->
    document (snd (script net1 b)) = document (snd (script net2 b))
    /\ dom_writes (snd (script net1 b)) = dom_writes (snd (script net2 b)).
Proof.
  intros net1 net2 b r1 r2 p1 p2 Hnet1 Hnet2 Hbody1 Hbody2 Hagree.
  rewrite (script_page net1 b r1 p1 Hnet1 Hbody1).
  rewrite (script_page net2 b r2 p2 Hnet2 Hbody2).
  rewrite Hagree. split; reflexivity.
Qed.

Lemma rendering_depends_on_data_greeting_witness :
  document (snd (script network_X page_loading))
  = document (snd (script network_X_failed page_loading))
  /\ dom_writes (snd (script network_X page_loading))
     = dom_writes (snd (script network_X_failed page_loading)).
Proof.
  apply (rendering_depends_on_data_greeting network_X network_X_failed page_loading
           response_X response_X_failed
           (JObject [("data", JObject [("greeting", JString "X")])])
           (JObject [("errors", JArray [JObject [("message", JString "failed")]]);
                     ("data", JObject [("greeting", JString "X"); ("other", JNumber "1")])])).
  - reflexivity.
  - reflexivity.
  - reflexivity.
  - reflexivity.
  - reflexivity.
Defined.

End ClientFacts.

(** * Properties of the service *)

Module ServiceFacts.
Import GraphQL Service.

Lemma buildSchema_typeDefs : buildSchema typeDefs = Some greeting_schema.
Proof. reflexivity. Qed.

Lemma assoc_greeting (f : string) (ty : TypeRef) :
  assoc f [("greeting", Nullable "String")] = Some ty <->
  f = "greeting" /\ ty = Nullable "String".
Proof.
  simpl. destruct (String.eqb_spec f "greeting") as [-> | Hne]; split.
  - intros [= <-]. split; reflexivity.
  - intros [_ ->]. reflexivity.
  - discriminate.
  - intros [Hf _]. contradiction.
Qed.

(** Every document that reads as a query for [greeting] alone gets the
    greeting, and leaves the state of the process as it was. *)
Lemma respond_greeting (q : string) (nm : option string) (st : Store) :
  parse q = Some {| operation := OpQuery; name := nm; selections := ["greeting"] |} ->
  respond server q st = Some (greeting_answer, st).
Proof.
  intros Hq. unfold respond.
  change (GraphQL.typeDefs server) with typeDefs.
  rewrite buildSchema_typeDefs. simpl. rewrite Hq. reflexivity.
Qed.

(** C1: every invocation of the greeting resolver, whatever it is called
    with, gives [Hello world]; hence the service answers the query
    [query { greeting }] with exactly the object
    [{ data: { greeting: "Hello world" } }], whose JSON text is written out
    in the last part. *)
Theorem greeting_response :
  (forall (args : list JSValue) (st : Store),
      greeting args st = (JString "Hello world", st))
  /\ (forall st : Store,
        respond server "query { greeting }" st
        = Some (JObject [("data", JObject [("greeting", JString "Hello world")])], st))
  /\ JSON_stringify (JObject [("data", JObject [("greeting", JString "Hello world")])])
     = Some ("{" +:+ quoted "data" +:+ ":{" +:+ quoted "greeting" +:+ ":"
             +:+ quoted "Hello world" +:+ "}}").
Proof.
  split; [| split].
  - intros args st. reflexivity.
  - intros st. apply (respond_greeting _ None). reflexivity.
  - reflexivity.
Qed.

(** C2: the schema of [typeDefs] has one root operation type, [query: Query],
    and one object type, [Query], whose only field is [greeting], of the
    nullable type [String]; there is no mutation and no subscription type,
    and [greeting] is the only field an operation can select. *)
Theorem schema_of_typeDefs :
  exists s : Schema,
    buildSchema typeDefs = Some s
    /\ root_types s = [(OpQuery, "Query")]
    /\ object_types s = [("Query", [("greeting", Nullable "String")])]
    /\ root_type s OpMutation = None
    /\ root_type s OpSubscription = None
    /\ (forall (op : OperationType) (f : string) (ty : TypeRef),
          exposes s op f ty <->
          op = OpQuery /\ f = "greeting" /\ ty = Nullable "String").
Proof.
  exists greeting_schema.
  split; [reflexivity |]. split; [reflexivity |]. split; [reflexivity |].
  split; [reflexivity |]. split; [reflexivity |].
  intros op f ty. split.
  - intros (fields & Hroot & Hf).
    destruct op; try discriminate Hroot.
    injection Hroot as <-. apply assoc_greeting in Hf. tauto.
  - intros (-> & -> & ->). exists [("greeting", Nullable "String")].
    split; reflexivity.
Qed.

(** A selected field the type does not have is reported. *)
Lemma undefined_fields_nonempty (t f : string) (fields : list (string * TypeRef))
    (sel : list string) :
  In f sel -> assoc f fields = None -> undefined_fields t fields sel <> [].
Proof.
  unfold undefined_fields.
  induction sel as [| g sel IH]; intros Hin Hf; [destruct Hin |].
  cbn [omap list_omap]. destruct Hin as [-> | Hin].
  - rewrite Hf. discriminate.
  - destruct (assoc g fields); [apply IH; assumption | discriminate].
Qed.

(** What cannot be validated is not executed: the answer carries the
    errors, as the engine made them, and no data. *)
Lemma execute_invalid (s : Schema) (op : Operation) (st : Store) :
  validate s op <> [] ->
  execute server s op st = Some (JObject [("errors", JArray (validate s op))], st).
Proof.
  intros Hinvalid. unfold execute.
  destruct (validate s op) as [| e errs]; [contradiction |].
  unfold response. simpl. rewrite List.map_id. reflexivity.
Qed.

(** C5: a query document that names a field the schema does not define
    (such as [{ bogus }]) is answered with an [errors] array, and the [data]
    of the answer, if there is any, has no key for that field.  The errors
    are those of the engine's validation: the service sets no [formatError]. *)
Theorem unknown_field_answered_with_errors :
  forall (q : string) (op : Operation) (f : string) (s : Schema) (st : Store),
    buildSchema typeDefs = Some s ->
    parse q = Some op ->
    In f (selections op) ->
    defines s f = false ->
    exists (errs : list JSValue) (props : list (string * JSValue)),
      respond server q st = Some (JObject props, st)
      /\ own_property "errors" props = Some (JArray errs)
      /\ errs = validate s op
      /\ errs <> []
      /\ (forall d, own_property "data" props = Some (JObject d) ->
                    own_property f d = None)
      /\ formatError server = None.
Proof.
  intros q op f s st Hs Hq Hin Hundef.
  rewrite buildSchema_typeDefs in Hs. injection Hs as <-.
  assert (Hinvalid : validate greeting_schema op <> []).
  { unfold validate. destruct (operation op); simpl; try discriminate.
    apply undefined_fields_nonempty with (f := f); [exact Hin |].
    unfold defines in Hundef. simpl in Hundef. simpl.
    destruct (String.eqb f "greeting"); [discriminate Hundef | reflexivity]. }
  exists (validate greeting_schema op), [("errors", JArray (validate greeting_schema op))].
  split; [| split; [| split; [| split; [| split]]]].
  - unfold respond. change (GraphQL.typeDefs server) with typeDefs.
    rewrite buildSchema_typeDefs. simpl. rewrite Hq. simpl.
    apply execute_invalid. exact Hinvalid.
  - reflexivity.
  - reflexivity.
  - exact Hinvalid.
  - intros d Hd. discriminate Hd.
  - reflexivity.
Qed.

Lemma unknown_field_answered_with_errors_witness :
  exists (errs : list JSValue) (props : list (string * JSValue)),
    respond server "{ bogus }" ∅ = Some (JObject props, ∅)
    /\ own_property "errors" props = Some (JArray errs)
    /\ errs <> [].
Proof.
  destruct (unknown_field_answered_with_errors "{ bogus }"
              {| operation := OpQuery; name := None; selections := ["bogus"] |}
              "bogus" greeting_schema ∅)
    as (errs & props & Hanswer & Herrors & _ & Hsome & _).
  - reflexivity.
  - reflexivity.
  - left. reflexivity.
  - reflexivity.
  - exists errs, props. repeat split; assumption.
Defined.

(** One more call leaves the sequence as pure as it was. *)
Lemma invoke_all_greeting (calls : list (list JSValue)) (st : Store) :
  invoke_all greeting calls st
  = (repeat (JString "Hello world") (length calls), st).
Proof.
  induction calls as [| args calls IH]; [reflexivity |].
  simpl. rewrite IH. reflexivity.
Qed.

(** C6: the greeting resolver is a constant function.  After any sequence
    of earlier invocations, from any state of the process and with any
    arguments, a call gives [Hello world]; two calls with different
    histories, states and arguments give the same result; and a sequence of
    calls gives that constant once per call and leaves the state alone. *)
Theorem greeting_pure :
  forall (before before' : list (list JSValue)) (args args' : list JSValue)
         (st st' : Store),
    greeting args (snd (invoke_all greeting before st)) = (JString "Hello world", st)
    /\ fst (greeting args (snd (invoke_all greeting before st)))
       = fst (greeting args' (snd (invoke_all greeting before' st')))
    /\ invoke_all greeting before st
       = (repeat (JString "Hello world") (length before), st).
Proof.
  intros before before' args args' st st'.
  rewrite !invoke_all_greeting. repeat split.
Qed.

(** C8: on startup the service binds port 9001 and, once the listener is
    bound, prints the line with its URL, once; it does nothing else.  The
    port is the same under every environment, and the environment variables
    have no part in what is bound or printed. *)
Theorem startup_effects :
  forall (host : Host) (p : Process) (url : string) (env' : gmap string string),
    host 9001%Z = Some url ->
    main host p
    = (Fulfilled tt,
       {| environment := environment p;
          listening := listening p ++ [9001%Z];
          console := console p ++ ["Server running at " +:+ url] |})
    /\ main host {| environment := env'; listening := listening p; console := console p |}
       = (Fulfilled tt,
          {| environment := env';
             listening := listening p ++ [9001%Z];
             console := console p ++ ["Server running at " +:+ url] |}).
Proof.
  intros host p url env' Hhost.
  unfold main, startStandaloneServer, console_log. simpl.
  rewrite Hhost. split; reflexivity.
Qed.

Lemma startup_effects_witness :
  listening (snd (main localhost fresh_process)) = [9001%Z]
  /\ console (snd (main localhost fresh_process))
     = ["Server running at http://localhost:9001/"].
Proof.
  destruct (startup_effects localhost fresh_process "http://localhost:9001/" ∅)
    as [Hmain _].
  - reflexivity.
  - rewrite Hmain. split; reflexivity.
Defined.

End ServiceFacts.

(** * The two together *)

Module WireFacts.
Import Client Wire.

(** Run against the service, the script puts the service's greeting on the
    page. *)
Lemma script_shows_hello_world (st : GraphQL.Store) (b : Browser) (old : string) :
  document b !! "greeting" = Some old ->
  fst (script (service_network st) b) = Fulfilled JUndefined
  /\ document (snd (script (service_network st) b)) !! "greeting" = Some "Hello world".
Proof.
  intros Hel.
  assert (Hanswer : GraphQL.respond Service.server query_document st
                    = Some (Service.greeting_answer, st)).
  { apply (ServiceFacts.respond_greeting _ None). reflexivity. }
  rewrite ClientFacts.script_run, ClientFacts.fetchGreeting_run.
  unfold service_network. rewrite Hanswer.
  rewrite bool_decide_eq_true_2 by (repeat split). simpl.
  rewrite Hel. simpl. split; [reflexivity |]. apply lookup_insert_eq.
Qed.

End WireFacts.

(** * The client at its edges *)

Module ClientEdges.
Import Client Samples.

(** When the greeting has arrived and the page has no element with id
    [greeting], the callback throws on setting [textContent] of [null]: the
    script rejects, with its one request issued and nothing written. *)
Theorem script_missing_element :
  forall (net : Network) (b : Browser) (g : JSValue),
    fst (fetchGreeting net b) = Fulfilled g ->
    document b !! "greeting" = None ->
    script net b = (Rejected (CannotSet "textContent" JNull), sent b).
Proof.
  intros net b g Hg Hel. rewrite ClientFacts.script_run, Hg, Hel. reflexivity.
Qed.

Lemma script_missing_element_witness :
  fst (script network_X page_bare) = Rejected (CannotSet "textContent" JNull)
  /\ dom_writes (snd (script network_X page_bare)) = [].
Proof.
  rewrite (script_missing_element network_X page_bare (JString "X")).
  - split; reflexivity.
  - reflexivity.
  - reflexivity.
Defined.

(** Whatever the network does, answer, fail or stay silent, the script
    sends its one request and writes to the page at most once, and then to
    the element [greeting]. *)
Theorem script_frame :
  forall (net : Network) (b : Browser),
    requests (snd (script net b)) = requests b ++ [(endpoint, request_init)]
    /\ exists ws : list (string * string),
         dom_writes (snd (script net b)) = dom_writes b ++ ws
         /\ length ws <= 1
         /\ Forall (fun w => fst w = "greeting") ws.
Proof.
  intros net b. rewrite ClientFacts.script_run.
  assert (Hnone : forall out : Settled JSValue,
             requests (snd (out, sent b)) = requests b ++ [(endpoint, request_init)]
             /\ exists ws : list (string * string),
                  dom_writes (snd (out, sent b)) = dom_writes b ++ ws
                  /\ length ws <= 1
                  /\ Forall (fun w => fst w = "greeting") ws).
  { intros out. split; [reflexivity |]. exists []. simpl.
    rewrite app_nil_r. repeat split; [lia | constructor]. }
  destruct (fst (fetchGreeting net b)) as [g | e |]; [| apply Hnone | apply Hnone].
  destruct (document b !! "greeting") as [old |]; [| apply Hnone].
  split; [reflexivity |].
  exists [("greeting", text_of g)]. simpl. repeat split; [lia |].
  repeat constructor.
Qed.

(** A greeting that is [null], or that [data] does not have, clears the
    element: the script fulfils and the text content is the empty string,
    not the word [null] or [undefined]. *)
Theorem script_clears_on_null_greeting :
  forall (net : Network) (b : Browser) (r : Response) (parsed g : JSValue)
         (old : string),
    net (length (requests b)) endpoint request_init = Fulfilled r ->
    json_body r = Some parsed ->
    data_greeting parsed = Some g ->
    g = JNull \/ g = JUndefined ->
    document b !! "greeting" = Some old ->
    fst (script net b) = Fulfilled JUndefined
    /\ document (snd (script net b)) !! "greeting" = Some "".
Proof.
  intros net b r parsed g old Hnet Hbody Hg Hnull Hel.
  assert (Hful : fst (fetchGreeting net b) = Fulfilled g).
  { rewrite ClientFacts.fetchGreeting_run, Hnet, Hbody. simpl.
    unfold data_greeting in Hg.
    destruct (get parsed "data") as [data |]; [| discriminate Hg].
    rewrite Hg. reflexivity. }
  rewrite ClientFacts.script_run, Hful, Hel. simpl.
  split; [reflexivity |].
  rewrite lookup_insert_eq. destruct Hnull as [-> | ->]; reflexivity.
Qed.

Lemma script_clears_on_null_greeting_witness :
  fst (script network_null_greeting page_loading) = Fulfilled JUndefined
  /\ document (snd (script network_null_greeting page_loading)) !! "greeting" = Some "".
Proof.
  apply (script_clears_on_null_greeting network_null_greeting page_loading
           response_null_greeting
           (JObject [("data", JObject [("greeting", JNull)])]) JNull "Loading").
  - reflexivity.
  - reflexivity.
  - reflexivity.
  - left. reflexivity.
  - reflexivity.
Defined.

(** A body whose [data] is [null], as in the answer to an operation that
    failed as a whole, makes [fetchGreeting] throw on reading [greeting] of
    [null]; the script rejects with that error and the page keeps its text. *)
Theorem null_data_throws :
  forall (net : Network) (b : Browser) (r : Response) (parsed : JSValue),
    net (length (requests b)) endpoint request_init = Fulfilled r ->
    json_body r = Some parsed ->
    get parsed "data" = Some JNull ->
    script net b = (Rejected (CannotRead "greeting" JNull), sent b).
Proof.
  intros net b r parsed Hnet Hbody Hdata.
  rewrite ClientFacts.script_run, ClientFacts.fetchGreeting_run, Hnet, Hbody, Hdata.
  reflexivity.
Qed.

Lemma null_data_throws_witness :
  fst (script network_null_data page_loading) = Rejected (CannotRead "greeting" JNull)
  /\ document (snd (script network_null_data page_loading)) !! "greeting"
     = Some "Loading".
Proof.
  rewrite (null_data_throws network_null_data page_loading response_null_data
             (JObject [("errors", JArray [JObject [("message", JString "failed")]]);
                       ("data", JNull)])).
  - split; reflexivity.
  - reflexivity.
  - reflexivity.
  - reflexivity.
Defined.

Lemma null_body_throws_witness :
  fst (script network_null_body page_loading) = Rejected (CannotDestructure "data" JNull)
  /\ document (snd (script network_null_body page_loading)) !! "greeting"
     = Some "Loading".
Proof.
  rewrite (ClientFacts.null_body_throws network_null_body page_loading
             response_null_body).
  - split; reflexivity.
  - reflexivity.
  - reflexivity.
Defined.

(** The script run a second time sends a second request, the next one the
    network sees; when both answers agree on [data.greeting] the second run
    leaves the page as the first one made it. *)
Theorem script_twice :
  forall (net : Network) (b : Browser) (r1 r2 : Response) (p1 p2 : JSValue),
    net (length (requests b)) endpoint request_init = Fulfilled r1 ->
    net (S (length (requests b))) endpoint request_init = Fulfilled r2 ->
    json_body r1 = Some p1 ->
    json_body r2 = Some p2 ->
    data_greeting p1 = data_greeting p2 ->
    requests (snd (script net (snd (script net b))))
    = requests b ++ [(endpoint, request_init); (endpoint, request_init)]
    /\ document (snd (script net (snd (script net b))))
       = document (snd (script net b)).
Proof.
  intros net b r1 r2 p1 p2 Hnet1 Hnet2 Hbody1 Hbody2 Hagree.
  set (b1 := snd (script net b)).
  assert (Hb1 : b1 = match data_greeting p1, document b !! "greeting" with
                     | Some g, Some _ => wrote "greeting" (text_of g) (sent b)
                     | _, _ => sent b
                     end).
  { apply (ClientFacts.script_page net b r1 p1 Hnet1 Hbody1). }
  assert (Hlen : length (requests b1) = S (length (requests b))).
  { rewrite Hb1. destruct (data_greeting p1), (document b !! "greeting");
      simpl; rewrite length_app; simpl; lia. }
  assert (Hreq1 : requests b1 = requests b ++ [(endpoint, request_init)]).
  { rewrite Hb1. destruct (data_greeting p1), (document b !! "greeting"); reflexivity. }
  rewrite (ClientFacts.script_page net b1 r2 p2); [| rewrite Hlen; exact Hnet2 | exact Hbody2].
  rewrite <- Hagree. split.
  - destruct (data_greeting p1), (document b1 !! "greeting"); simpl;
      rewrite Hreq1, <- app_assoc; reflexivity.
  - destruct (data_greeting p1) as [g |] eqn:Hg; [| destruct (document b1 !! "greeting"); reflexivity].
    destruct (document b1 !! "greeting") as [t |] eqn:Hel; [| reflexivity]. simpl.
    rewrite Hb1 in Hel |- *.
    destruct (document b !! "greeting") as [old |] eqn:Hold; simpl in *.
    + apply insert_insert_eq.
    + rewrite Hold in Hel. discriminate Hel.
Qed.

Lemma script_twice_witness :
  requests (snd (script network_X (snd (script network_X page_loading))))
  = [(endpoint, request_init); (endpoint, request_init)]
  /\ document (snd (script network_X (snd (script network_X page_loading))))
     = document (snd (script network_X page_loading)).
Proof.
  apply (script_twice network_X page_loading response_X response_X
           (JObject [("data", JObject [("greeting", JString "X")])])
           (JObject [("data", JObject [("greeting", JString "X")])])).
  - reflexivity.
  - reflexivity.
  - reflexivity.
  - reflexivity.
  - reflexivity.
Defined.

End ClientEdges.

(** * The service at its edges *)

Module ServiceEdges.
Import GraphQL Service Samples.

(** The resolver map and the schema name the same fields: a resolver is
    registered for [t.f] exactly when the type [t] of the schema has a
    field [f]. *)
Theorem resolvers_match_schema :
  exists s : Schema,
    buildSchema typeDefs = Some s
    /\ forall t f : string,
         is_Some (assoc t resolvers ≫= assoc f) <->
         exists (fields : list (string * TypeRef)) (ty : TypeRef),
           assoc t (object_types s) = Some fields /\ assoc f fields = Some ty.
Proof.
  exists greeting_schema. split; [reflexivity |].
  intros t f. simpl.
  destruct (String.eqb_spec t "Query") as [-> | Ht]; simpl.
  - destruct (String.eqb_spec f "greeting") as [-> | Hf]; split.
    + intros _. eexists _, _. split; reflexivity.
    + intros _. eexists. reflexivity.
    + intros [r Hr]. discriminate Hr.
    + intros (fields & ty & [= <-] & Hty). simpl in Hty.
      destruct (String.eqb_spec f "greeting"); [contradiction | discriminate].
  - split.
    + intros [r Hr]. discriminate Hr.
    + intros (fields & ty & Hfields & _). discriminate Hfields.
Qed.

(** Fields that are all [greeting] are resolved one by one to the constant,
    without an error and without a change of state. *)
Lemma execute_fields_greeting (sel : list string) (st : Store) :
  Forall (fun f => f = "greeting") sel ->
  execute_fields resolvers "Query" [("greeting", Nullable "String")] sel st
  = Some (List.map (fun f => (f, JString "Hello world")) sel, [], st).
Proof.
  induction 1 as [| f sel -> _ IH]; [reflexivity |].
  simpl in *. rewrite IH. reflexivity.
Qed.

(** Once [greeting] is seen, further selections of it add nothing. *)
Lemma collect_fields_seen (seen sel : list string) :
  Forall (fun f => f = "greeting") sel ->
  "greeting" ∈ seen ->
  collect_fields seen sel = [].
Proof.
  induction 1 as [| f sel -> _ IH]; intros Hseen; [reflexivity |].
  simpl. rewrite bool_decide_eq_true_2 by exact Hseen. apply IH. exact Hseen.
Qed.

Lemma collect_fields_greeting (sel : list string) :
  Forall (fun f => f = "greeting") sel ->
  sel <> [] ->
  collect_fields [] sel = ["greeting"].
Proof.
  intros Hall Hne. destruct Hall as [| f sel -> Hall]; [contradiction |].
  cbn [collect_fields].
  rewrite (bool_decide_eq_false_2 ("greeting" ∈ [])) by apply not_elem_of_nil.
  rewrite collect_fields_seen; [reflexivity | exact Hall |].
  apply elem_of_cons. left. reflexivity.
Qed.

(** Validation passes exactly the queries for [greeting]. *)
Lemma validate_passes (op : Operation) :
  validate greeting_schema op = [] <->
  operation op = OpQuery /\ Forall (fun f => f = "greeting") (selections op).
Proof.
  unfold validate. destruct (operation op); simpl.
  - unfold undefined_fields.
    induction (selections op) as [| f sel IH]; simpl.
    + split; [intros _; split; [reflexivity | constructor] | reflexivity].
    + destruct (String.eqb_spec f "greeting") as [-> | Hf]; simpl.
      * rewrite IH. split.
        -- intros [_ Hall]. split; [reflexivity | constructor; [reflexivity | exact Hall]].
        -- intros [_ Hall]. inversion Hall; subst. split; [reflexivity | assumption].
      * split; [discriminate |]. intros [_ Hall]. inversion Hall; subst. contradiction.
  - split; [discriminate | intros [Hop _]; discriminate Hop].
  - split; [discriminate | intros [Hop _]; discriminate Hop].
Qed.

(** A document that is read has at least one selection. *)
Lemma selection_set_nonempty (kind : OperationType) (nm : option string)
    (ts : list Token) (op : Operation) :
  selection_set kind nm ts = Some op -> selections op <> [].
Proof.
  unfold selection_set.
  destruct (parse_selection_set ts) as [[[| f fs] [| t rest]] |]; try discriminate.
  intros [= <-]. discriminate.
Qed.

Lemma parse_nonempty (q : string) (op : Operation) :
  parse q = Some op -> selections op <> [].
Proof.
  unfold parse. destruct (tokens q) as [ts |]; [| discriminate]. simpl.
  destruct ts as [| [kw | | | |] ts]; try discriminate.
  - destruct ts as [| [nm | | | |] ts]; try discriminate.
    + destruct ts as [| [| | | |] ts]; try discriminate.
      destruct (operation_of kw); [| discriminate]. simpl.
      apply selection_set_nonempty.
    + destruct (operation_of kw); [| discriminate]. simpl.
      apply selection_set_nonempty.
  - apply selection_set_nonempty.
Qed.

(** A query for [greeting], asked for once or several times, is executed to
    the greeting. *)
Lemma execute_valid (op : Operation) (st : Store) :
  operation op = OpQuery ->
  Forall (fun f => f = "greeting") (selections op) ->
  selections op <> [] ->
  execute server greeting_schema op st = Some (greeting_answer, st).
Proof.
  intros Hop Hall Hne. unfold execute.
  rewrite (proj2 (validate_passes op)) by (split; assumption).
  rewrite Hop. simpl.
  rewrite collect_fields_greeting by assumption.
  reflexivity.
Qed.

(** The two ways a document that is read can be answered. *)
Lemma respond_cases (q : string) (st : Store) (v : JSValue) (st' : Store) :
  respond server q st = Some (v, st') ->
  st' = st
  /\ exists op : Operation,
       parse q = Some op
       /\ ((validate greeting_schema op = [] /\ v = greeting_answer)
           \/ (validate greeting_schema op <> []
               /\ v = JObject [("errors", JArray (validate greeting_schema op))])).
Proof.
  unfold respond. change (GraphQL.typeDefs server) with typeDefs.
  rewrite ServiceFacts.buildSchema_typeDefs. simpl.
  destruct (parse q) as [op |] eqn:Hq; [| discriminate]. simpl.
  destruct (validate greeting_schema op) as [| e errs] eqn:Hv.
  - apply validate_passes in Hv as Hvalid. destruct Hvalid as [Hop Hall].
    rewrite (execute_valid op st Hop Hall (parse_nonempty q op Hq)).
    intros [= <- <-]. split; [reflexivity |]. exists op. split; [reflexivity |].
    left. split; [exact Hv | reflexivity].
  - rewrite ServiceFacts.execute_invalid by (rewrite Hv; discriminate).
    intros [= <- <-]. split; [reflexivity |]. exists op. split; [reflexivity |].
    right. rewrite Hv. split; [discriminate | reflexivity].
Qed.

(** The service keeps no state: answering a document leaves the state of
    the process as it was, and the same document gets the same answer in
    every state. *)
Theorem respond_stateless :
  forall (q : string) (st st2 : Store) (v : JSValue) (st' : Store),
    respond server q st = Some (v, st') ->
    st' = st /\ respond server q st2 = Some (v, st2).
Proof.
  intros q st st2 v st' Hrun.
  destruct (respond_cases q st v st' Hrun) as (-> & op & Hq & Hcase).
  split; [reflexivity |].
  unfold respond. change (GraphQL.typeDefs server) with typeDefs.
  rewrite ServiceFacts.buildSchema_typeDefs. simpl. rewrite Hq. simpl.
  destruct Hcase as [[Hv ->] | [Hv ->]].
  - apply validate_passes in Hv as [Hop Hall].
    apply execute_valid; [assumption | assumption |].
    apply (parse_nonempty q). exact Hq.
  - apply ServiceFacts.execute_invalid. exact Hv.
Qed.

Lemma respond_stateless_witness :
  respond server "{ greeting }" {["visits" := JNumber "7"]}
  = Some (greeting_answer, {["visits" := JNumber "7"]}).
Proof.
  apply (respond_stateless "{ greeting }" ∅ {["visits" := JNumber "7"]}
           greeting_answer ∅).
  reflexivity.
Defined.

(** A document gets the greeting exactly when it is a query all of whose
    selections are [greeting], however often the field is repeated and
    whether or not the operation is named. *)
Theorem greeting_answer_iff :
  forall (q : string) (op : Operation) (st : Store),
    parse q = Some op ->
    (respond server q st = Some (greeting_answer, st) <->
     operation op = OpQuery /\ Forall (fun f => f = "greeting") (selections op)).
Proof.
  intros q op st Hq. split.
  - intros Hrun.
    destruct (respond_cases q st _ _ Hrun) as (_ & op' & Hq' & Hcase).
    rewrite Hq in Hq'. injection Hq' as <-.
    destruct Hcase as [[Hv _] | [_ Habs]]; [| discriminate Habs].
    apply validate_passes. exact Hv.
  - intros [Hop Hall]. unfold respond.
    change (GraphQL.typeDefs server) with typeDefs.
    rewrite ServiceFacts.buildSchema_typeDefs. simpl. rewrite Hq. simpl.
    apply execute_valid; [assumption | assumption |].
    apply (parse_nonempty q). exact Hq.
Qed.

Lemma greeting_answer_iff_witness :
  respond server "query Hello { greeting, greeting }" ∅ = Some (greeting_answer, ∅).
Proof.
  apply (greeting_answer_iff "query Hello { greeting, greeting }"
           {| operation := OpQuery; name := Some "Hello";
              selections := ["greeting"; "greeting"] |} ∅).
  - reflexivity.
  - split; [reflexivity |]. repeat constructor.
Defined.

End ServiceEdges.

(** * Client and service together, at a sample page *)

Module WireRuns.
Import Client Wire.

Lemma script_shows_hello_world_witness :
  fst (script (service_network ∅) page_loading) = Fulfilled JUndefined
  /\ document (snd (script (service_network ∅) page_loading)) !! "greeting"
     = Some "Hello world".
Proof.
  apply (WireFacts.script_shows_hello_world ∅ page_loading "Loading").
  reflexivity.
Defined.

End WireRuns.
